(** * A shallow embedding of [src/drawing.rs] (the DXF document orchestrator)

    The code pairs, the push-back iterator, the section dispatcher, the
    generic repeated-item reader, the unknown-section skipper, the thumbnail
    codec, the document writer and the format sniffer of [Drawing].

    Outcomes.  A Rust [DxfResult<T>] is [Res T]: [Ok], [Err e], plus [Panic]
    for a Rust panic (index or slice out of range, unsigned underflow, a
    [byteorder] write into a too-short buffer).  [Stuck] is the outcome of
    the fuel-bounded loop combinator when its fuel runs out; the fuel
    [rust_loop] supplies is always enough ([rust_loop_unfold]).

    The iterator.  A [PutBack<I>] over [DxfResult<CodePair>] items is the
    list of the items still to come.  [next] takes the head; every
    [put_back] of the code puts back the item it has just taken, so it is
    [cons] of that item.  An external reader that works on the iterator
    consumes a prefix of it (its own [put_back]s also return what it just
    took); it is given by what it builds and the number [n] of items it
    consumes, and the iterator continues at [skipn n]. *)

From Stdlib Require Import String Ascii List ZArith Arith Lia Bool.
From Stdlib Require Strings.Byte.
Import ListNotations.
Open Scope string_scope.
Open Scope list_scope.

(** ** Code pairs and errors (lib.rs) *)

(** [CodePairValue].  [Double] holds the bit pattern of its [f64]: no claim
    looks inside a floating-point value. *)
Inductive CodePairValue : Type :=
| Boolean (b : bool)
| Integer (i : Z)
| Long (l : Z)
| Short (s : Z)
| Double (bits : Z)
| Str (s : string).

Record CodePair : Type := mk_pair { code : Z; value : CodePairValue }.

(** [CodePair::new_str], [CodePair::new_string], [CodePair::new_i32]. *)
Definition new_str (c : Z) (s : string) : CodePair := mk_pair c (Str s).
Definition new_i32 (c : Z) (i : Z) : CodePair := mk_pair c (Integer i).

(** [DxfError]; [IoError] is a transport error of the source, carried as an
    opaque number. *)
Inductive DxfError : Type :=
| IoError (n : nat)
| UnexpectedEndOfInput
| UnexpectedCodePair (p : CodePair) (context : string)
| UnexpectedCode (c : Z)
| WrongValueType
| ParseError.

Inductive Res (A : Type) : Type :=
| Ok (a : A)
| Err (e : DxfError)
| Panic
| Stuck.
Arguments Ok {A} a.
Arguments Err {A} e.
Arguments Panic {A}.
Arguments Stuck {A}.

(** [try!]: early return of an error (and propagation of a panic). *)
Definition bind {A B : Type} (m : Res A) (k : A -> Res B) : Res B :=
  match m with
  | Ok a => k a
  | Err e => Err e
  | Panic => Panic
  | Stuck => Stuck
  end.

Notation "x <- m ;; k" := (bind m (fun x => k))
  (at level 61, m at next level, right associativity).
Notation "' p <- m ;; k" := (bind m (fun x => match x with p => k end))
  (at level 61, p pattern, m at next level, right associativity).

(** Items of the iterator: [DxfResult<CodePair>]. *)
Inductive Item : Type :=
| IOk (p : CodePair)
| IErr (e : DxfError).

Definition stream := list Item.

(** Modelled from the spec: [CodePairValue::assert_string] and
    [CodePairValue::assert_i32] of lib.rs (a type-mismatched value assertion
    is a malformed-payload error). *)
Definition assert_string (v : CodePairValue) : Res string :=
  match v with Str s => Ok s | _ => Err WrongValueType end.

Definition assert_i32 (v : CodePairValue) : Res Z :=
  match v with Integer i => Ok i | _ => Err WrongValueType end.

(** [CodePair { code: c, value: CodePairValue::Str(s) }] as a pattern. *)
Definition str_pair (c : Z) (p : CodePair) : option string :=
  if Z.eqb (code p) c
  then match value p with Str s => Some s | _ => None end
  else None.

Definition is_str_pair (c : Z) (s : string) (p : CodePair) : bool :=
  match str_pair c p with Some s' => String.eqb s' s | None => false end.

(** ** Versions (enums.rs)

    Modelled from the spec: the ordered enumeration [AcadVersion]; its
    derived [PartialOrd] is declaration order. *)
Inductive AcadVersion : Type :=
| Version1_0 | Version1_2 | Version1_40 | Version2_05 | Version2_10
| Version2_21 | Version2_22 | Version2_5 | Version2_6 | R9 | R10 | R11
| R12 | R13 | R14 | R2000 | R2004 | R2007 | R2010 | R2013.

Definition version_index (v : AcadVersion) : nat :=
  match v with
  | Version1_0 => 0 | Version1_2 => 1 | Version1_40 => 2 | Version2_05 => 3
  | Version2_10 => 4 | Version2_21 => 5 | Version2_22 => 6 | Version2_5 => 7
  | Version2_6 => 8 | R9 => 9 | R10 => 10 | R11 => 11 | R12 => 12
  | R13 => 13 | R14 => 14 | R2000 => 15 | R2004 => 16 | R2007 => 17
  | R2010 => 18 | R2013 => 19
  end.

(** [a >= b] *)
Definition version_ge (a b : AcadVersion) : bool :=
  Nat.leb (version_index b) (version_index a).

(** ** Rust primitives used by the thumbnail code *)

(** [a - b] on [usize], with overflow checks (a panic on underflow). *)
Definition usize_sub (a b : nat) : Res nat :=
  if Nat.ltb a b then Panic else Ok (a - b).

(** [n as i32] for a [usize] [n]: the low 32 bits, two's complement. *)
Definition as_i32 (n : nat) : Z :=
  let z := Z.modulo (Z.of_nat n) (2 ^ 32) in
  if Z.leb (2 ^ 31) z then z - 2 ^ 32 else z.

(** [&v[start..]]: panics when [start > v.len()]. *)
Definition slice_from {A : Type} (v : list A) (start : nat) : Res (list A) :=
  if Nat.leb start (length v) then Ok (skipn start v) else Panic.

(** [v[i]] (read): panics out of range. *)
Definition vec_get {A : Type} (v : list A) (i : nat) : Res A :=
  match nth_error v i with Some a => Ok a | None => Panic end.

(** [v[i] = a] (write): panics out of range. *)
Fixpoint vec_set {A : Type} (v : list A) (i : nat) (a : A) : Res (list A) :=
  match v, i with
  | [], _ => Panic
  | _ :: t, O => Ok (a :: t)
  | h :: t, S i' => bind (vec_set t i' a) (fun t' => Ok (h :: t'))
  end.

(** [slice.chunks(n)] for [n > 0]: consecutive pieces of length [n], the
    last one possibly shorter. *)
Fixpoint chunks_aux {A : Type} (fuel n : nat) (l : list A) : list (list A) :=
  match fuel with
  | O => []
  | S f =>
      match l with
      | [] => []
      | _ => firstn n l :: chunks_aux f n (skipn n l)
      end
  end.

Definition chunks {A : Type} (n : nat) (l : list A) : list (list A) :=
  chunks_aux (length l) n l.

(** The digit [d < 16] as an upper-case hexadecimal character. *)
Definition hex_digit_upper (d : nat) : ascii :=
  if Nat.ltb d 10 then ascii_of_nat (48 + d) else ascii_of_nat (55 + d).

(** [format!("{:X}", b)] for a [u8]: upper-case hexadecimal without
    leading zeros (no width is given). *)
Definition fmt_upper_hex (b : Byte.byte) : string :=
  let n := Byte.to_nat b in
  if Nat.ltb n 16
  then String (hex_digit_upper n) EmptyString
  else String (hex_digit_upper (n / 16))
         (String (hex_digit_upper (n mod 16)) EmptyString).

(** [LittleEndian::write_i32(buf, n)] of the byteorder crate: panics when
    [buf.len() < 4], otherwise stores [n] little-endian in [buf[0..4]]. *)
Definition le_i32_bytes (n : Z) : list Byte.byte :=
  map (fun k =>
         match Byte.of_nat (Z.to_nat (Z.land (Z.shiftr n (8 * k)) 255)) with
         | Some b => b
         | None => Byte.x00
         end) [0; 1; 2; 3]%Z.

Definition le_write_i32 (buf : list Byte.byte) (n : Z) : Res (list Byte.byte) :=
  if Nat.ltb (length buf) 4 then Panic else Ok (le_i32_bytes n ++ skipn 4 buf).

(** Modelled from the spec: [parse_hex_string] of helper_functions.rs.  Each
    two hexadecimal digits (either case) give one byte appended to [data];
    an odd length or a non-hexadecimal character is a fatal decode error. *)
Definition hex_value (c : ascii) : option nat :=
  let n := nat_of_ascii c in
  if andb (Nat.leb 48 n) (Nat.leb n 57) then Some (n - 48)
  else if andb (Nat.leb 65 n) (Nat.leb n 70) then Some (n - 55)
  else if andb (Nat.leb 97 n) (Nat.leb n 102) then Some (n - 87)
  else None.

Fixpoint parse_hex_chars (s : string) : Res (list Byte.byte) :=
  match s with
  | EmptyString => Ok []
  | String _ EmptyString => Err ParseError
  | String h (String l rest) =>
      match hex_value h, hex_value l with
      | Some a, Some b =>
          match Byte.of_nat (16 * a + b) with
          | Some byte => bind (parse_hex_chars rest) (fun t => Ok (byte :: t))
          | None => Err ParseError
          end
      | _, _ => Err ParseError
      end
  end.

Definition parse_hex_string (s : string) (data : list Byte.byte)
  : Res (list Byte.byte) :=
  bind (parse_hex_chars s) (fun bytes => Ok (data ++ bytes)).

(** ** Rust [loop]s

    A loop body maps the loop state (what it builds, the iterator) to
    [Continue] (next iteration) or [Break] (leave the loop). *)
Inductive Flow (S : Type) : Type :=
| Continue (st : S)
| Break (st : S).
Arguments Continue {S} st.
Arguments Break {S} st.

Fixpoint loop_fuel {D : Type} (fuel : nat)
    (body : D * stream -> Res (Flow (D * stream))) (st : D * stream)
  : Res (D * stream) :=
  match fuel with
  | O => Stuck
  | S f =>
      match body st with
      | Ok (Continue st') => loop_fuel f body st'
      | Ok (Break st') => Ok st'
      | Err e => Err e
      | Panic => Panic
      | Stuck => Stuck
      end
  end.

(** Every iteration of the loops of drawing.rs takes at least one item from
    the iterator, so one unit of fuel per remaining item suffices. *)
Definition rust_loop {D : Type} (body : D * stream -> Res (Flow (D * stream)))
    (st : D * stream) : Res (D * stream) :=
  loop_fuel (S (length (snd st))) body st.

(** A body that takes at least one item before it continues, and leaves
    the loop with no more items than it started with. *)
Definition consuming {D : Type} (body : D * stream -> Res (Flow (D * stream)))
  : Prop :=
  (forall st st', body st = Ok (Continue st') ->
                  length (snd st') < length (snd st)) /\
  (forall st st', body st = Ok (Break st') ->
                  length (snd st') <= length (snd st)).

(** [x.push_str(s)] over the bytes of a chunk. *)
Definition hex_line (chunk : list Byte.byte) : string :=
  fold_left (fun line b => String.append line (fmt_upper_hex b)) chunk EmptyString.

(** The thumbnail buffer that [read_thumbnail] seeds: [BM], four length
    bytes, two reserved 16-bit fields, the bit offset 1078. *)
Definition bmp_header : list Byte.byte :=
  [Byte.x42; Byte.x4d; Byte.x00; Byte.x00; Byte.x00; Byte.x00; Byte.x00;
   Byte.x00; Byte.x00; Byte.x00; Byte.x36; Byte.x04; Byte.x00; Byte.x00].

(** The writer: a [CodePairWriter] run is the list of pairs it writes. *)
Definition write_code_pair (p : CodePair) : Res (list CodePair) := Ok [p].

Definition then_write (m1 m2 : Res (list CodePair)) : Res (list CodePair) :=
  bind m1 (fun o1 => bind m2 (fun o2 => Ok (o1 ++ o2))).
Infix ">>" := then_write (at level 62, right associativity).

(** ** Vocabulary of the statements *)

(** The section names [read_sections] dispatches to a reader of its own. *)
Definition known_section_names : list string :=
  ["HEADER"; "CLASSES"; "TABLES"; "BLOCKS"; "ENTITIES"; "OBJECTS";
   "THUMBNAILIMAGE"].

(** A string of an even number of hexadecimal digits. *)
Fixpoint valid_hex_string (s : string) : bool :=
  match s with
  | EmptyString => true
  | String a (String b rest) =>
      match hex_value a, hex_value b with
      | Some _, Some _ => valid_hex_string rest
      | _, _ => false
      end
  | String _ EmptyString => false
  end.

(** A pair the unknown-section skipper drops: anything but [0/ENDSEC], a
    code-0 pair holding a string (the tokenizer types code 0 as a string). *)
Definition skippable_pair (p : CodePair) : bool :=
  if Z.eqb (code p) 0
  then match value p with Str s => negb (String.eqb s "ENDSEC") | _ => false end
  else true.

(** The framing [0/SECTION], [2/name], ..., [0/ENDSEC] of a section. *)
Definition section (name : string) (body : list CodePair) : list CodePair :=
  [new_str 0 "SECTION"; new_str 2 name] ++ body ++ [new_str 0 "ENDSEC"].

(** The markers [swallow_table] stops at: its pattern
    ["TABLE" | "ENDSEC" | "ENDTAB"]. *)
Definition table_stop (s : string) : bool :=
  String.eqb s "TABLE" || String.eqb s "ENDSEC" || String.eqb s "ENDTAB".

(** A pair the table skipper drops: anything but a code-0 marker it stops
    at, a code-0 pair holding a string. *)
Definition table_skippable (p : CodePair) : bool :=
  if Z.eqb (code p) 0
  then match value p with Str s => negb (table_stop s) | _ => false end
  else true.

Section Dxf.

(** The record types of the external readers and writers (header.rs,
    class.rs, tables.rs, block.rs, entities.rs, objects.rs). *)
Context {Header Class AppId BlockRecord DimStyle Layer LineType Style Ucs
         View ViewPort Block Entity Object : Type}.

(** [Header::default()], [header.version], [header.handles_enabled]. *)
Context (header_default : Header)
        (header_version : Header -> AcadVersion)
        (header_handles_enabled : Header -> bool).

Record Drawing : Type := mk_drawing {
  header : Header;
  classes : list Class;
  app_ids : list AppId;
  block_records : list BlockRecord;
  dim_styles : list DimStyle;
  layers : list Layer;
  line_types : list LineType;
  styles : list Style;
  ucs : list Ucs;
  views : list View;
  view_ports : list ViewPort;
  blocks : list Block;
  entities : list Entity;
  objects : list Object;
  thumbnail : option (list Byte.byte)
}.

(** [Drawing::default()] *)
Definition drawing_default : Drawing :=
  mk_drawing header_default [] [] [] [] [] [] [] [] [] [] [] [] [] None.

Definition set_header (d : Drawing) (h : Header) : Drawing :=
  mk_drawing h (classes d) (app_ids d) (block_records d) (dim_styles d)
    (layers d) (line_types d) (styles d) (ucs d) (views d) (view_ports d)
    (blocks d) (entities d) (objects d) (thumbnail d).

Definition set_entities (d : Drawing) (es : list Entity) : Drawing :=
  mk_drawing (header d) (classes d) (app_ids d) (block_records d) (dim_styles d)
    (layers d) (line_types d) (styles d) (ucs d) (views d) (view_ports d)
    (blocks d) es (objects d) (thumbnail d).

Definition set_objects (d : Drawing) (os : list Object) : Drawing :=
  mk_drawing (header d) (classes d) (app_ids d) (block_records d) (dim_styles d)
    (layers d) (line_types d) (styles d) (ucs d) (views d) (view_ports d)
    (blocks d) (entities d) os (thumbnail d).

Definition set_thumbnail (d : Drawing) (t : option (list Byte.byte)) : Drawing :=
  mk_drawing (header d) (classes d) (app_ids d) (block_records d) (dim_styles d)
    (layers d) (line_types d) (styles d) (ucs d) (views d) (view_ports d)
    (blocks d) (entities d) (objects d) t.

(** *** The external readers, each with the number of items it consumes *)
Context (header_read : stream -> Res (Header * nat))                (* Header::read *)
        (read_classes : Drawing -> stream -> Res (Drawing * nat))   (* Class::read_classes *)
        (read_specific_table : Drawing -> stream -> Res (Drawing * nat))
        (read_block : Drawing -> stream -> Res (Drawing * nat))     (* Block::read_block *)
        (read_entity_seq : stream -> Res (list Entity * nat))       (* EntityIter::read_entities_into_vec *)
        (read_object_seq : stream -> list Object * nat).            (* the objects an ObjectIter yields *)

(** *** The external writers: the pairs each one writes *)
Context (prelude : list CodePair)                                   (* writer.write_prelude() *)
        (header_write : Header -> list CodePair)                    (* Header::write *)
        (class_write : AcadVersion -> Class -> list CodePair)        (* Class::write *)
        (tables_write : Drawing -> bool -> list CodePair)           (* tables::write_tables *)
        (block_write : AcadVersion -> bool -> Block -> list CodePair)
        (entity_write : AcadVersion -> bool -> Entity -> list CodePair)
        (object_write : AcadVersion -> Object -> list CodePair).

(** *** The byte source of [load] *)
Context {Source : Type}
        (read_line : Source -> option (Res (string * Source)))      (* helper_functions::read_line *)
        (dxb_load : Source -> Res Drawing)                          (* DxbReader::new(reader).load() *)
        (code_pair_iter : Source -> string -> stream).              (* CodePairIter::new(reader, first_line) *)

(** ** Writing *)

Definition write_classes (d : Drawing) : Res (list CodePair) :=
  if Nat.eqb (length (classes d)) 0 then Ok [] else
  write_code_pair (new_str 0 "SECTION") >>
  write_code_pair (new_str 2 "CLASSES") >>
  Ok (flat_map (class_write (header_version (header d))) (classes d)) >>
  write_code_pair (new_str 0 "ENDSEC").

Definition write_tables (d : Drawing) (write_handles : bool) : Res (list CodePair) :=
  write_code_pair (new_str 0 "SECTION") >>
  write_code_pair (new_str 2 "TABLES") >>
  Ok (tables_write d write_handles) >>
  write_code_pair (new_str 0 "ENDSEC").

Definition write_blocks (d : Drawing) (write_handles : bool) : Res (list CodePair) :=
  if Nat.eqb (length (blocks d)) 0 then Ok [] else
  write_code_pair (new_str 0 "SECTION") >>
  write_code_pair (new_str 2 "BLOCKS") >>
  Ok (flat_map (block_write (header_version (header d)) write_handles) (blocks d)) >>
  write_code_pair (new_str 0 "ENDSEC").

Definition write_entities (d : Drawing) (write_handles : bool) : Res (list CodePair) :=
  write_code_pair (new_str 0 "SECTION") >>
  write_code_pair (new_str 2 "ENTITIES") >>
  Ok (flat_map (entity_write (header_version (header d)) write_handles) (entities d)) >>
  write_code_pair (new_str 0 "ENDSEC").

Definition write_objects (d : Drawing) : Res (list CodePair) :=
  write_code_pair (new_str 0 "SECTION") >>
  write_code_pair (new_str 2 "OBJECTS") >>
  Ok (flat_map (object_write (header_version (header d))) (objects d)) >>
  write_code_pair (new_str 0 "ENDSEC").

Definition write_thumbnail (d : Drawing) : Res (list CodePair) :=
  if version_ge (header_version (header d)) R2000 then
    match thumbnail d with
    | Some data =>
        write_code_pair (new_str 0 "SECTION") >>
        write_code_pair (new_str 2 "THUMBNAILIMAGE") >>
        (len <- usize_sub (length data) 14 ;;
         write_code_pair (new_i32 90 (as_i32 len)) >>
         (payload <- slice_from data 14 ;;
          Ok (map (fun s => new_str 310 (hex_line s)) (chunks 128 payload)))) >>
        write_code_pair (new_str 0 "ENDSEC")
    | None => Ok []
    end
  else Ok [].

Definition save_internal (d : Drawing) : Res (list CodePair) :=
  let write_handles :=
    orb (version_ge (header_version (header d)) R13)
        (header_handles_enabled (header d)) in
  Ok prelude >>
  Ok (header_write (header d)) >>
  write_classes d >>
  write_tables d write_handles >>
  write_blocks d write_handles >>
  write_entities d write_handles >>
  write_objects d >>
  write_thumbnail d >>
  write_code_pair (new_str 0 "EOF").

(** ** Reading *)

(** [swallow_section]: drop every pair up to the next [0/ENDSEC], which is
    put back. *)
Fixpoint swallow_section (iter : stream) : Res stream :=
  match iter with
  | [] => Ok []
  | IErr e :: _ => Err e
  | IOk pair' :: rest =>
      if Z.eqb (code pair') 0 then
        str <- assert_string (value pair') ;;
        if String.eqb str "ENDSEC" then Ok (IOk pair' :: rest)
        else swallow_section rest
      else swallow_section rest
  end.

(** [swallow_table]: drop every pair up to the next [0/TABLE], [0/ENDSEC]
    or [0/ENDTAB], which is put back; the end of the stream is an error. *)
Fixpoint swallow_table (iter : stream) : Res stream :=
  match iter with
  | [] => Err UnexpectedEndOfInput
  | IErr e :: _ => Err e
  | IOk pair' :: rest =>
      if Z.eqb (code pair') 0 then
        str <- assert_string (value pair') ;;
        if table_stop str then Ok (IOk pair' :: rest)
        else swallow_table rest
      else swallow_table rest
  end.

(** One iteration of the loop of [read_section_item]. *)
Definition section_item_body (item_type : string)
    (callback : Drawing -> stream -> Res (Drawing * nat))
    (st : Drawing * stream) : Res (Flow (Drawing * stream)) :=
  let (d, iter) := st in
  match iter with
  | [] => Err UnexpectedEndOfInput
  | IErr e :: _ => Err e
  | IOk pair' :: rest =>
      if Z.eqb (code pair') 0 then
        str <- assert_string (value pair') ;;
        if String.eqb str "ENDSEC" then Ok (Break (d, IOk pair' :: rest))
        else if String.eqb str item_type then
          '(d', n) <- callback d rest ;; Ok (Continue (d', skipn n rest))
        else Err (UnexpectedCodePair pair' "")
      else Err (UnexpectedCodePair pair' "")
  end.

Definition read_section_item (item_type : string)
    (callback : Drawing -> stream -> Res (Drawing * nat))
    (d : Drawing) (iter : stream) : Res (Drawing * stream) :=
  rust_loop (section_item_body item_type callback) (d, iter).

(** The hex-data loop of [read_thumbnail]. *)
Fixpoint read_hex_data (data : list Byte.byte) (iter : stream)
  : Res (list Byte.byte * stream) :=
  match iter with
  | [] => Ok (data, [])
  | IErr e :: _ => Err e
  | IOk pair' :: rest =>
      if Z.eqb (code pair') 0 then Ok (data, IOk pair' :: rest)
      else if Z.eqb (code pair') 310 then
        str <- assert_string (value pair') ;;
        data' <- parse_hex_string str data ;;
        read_hex_data data' rest
      else Err (UnexpectedCode (code pair'))
  end.

(** Modelled from the spec: the [next_pair!] macro of helper_functions.rs
    (an I/O error is returned, the end of the stream is
    [UnexpectedEndOfInput]). *)
Definition next_pair (iter : stream) : Res (CodePair * stream) :=
  match iter with
  | IOk pair' :: rest => Ok (pair', rest)
  | IErr e :: _ => Err e
  | [] => Err UnexpectedEndOfInput
  end.

Definition read_thumbnail (d : Drawing) (iter : stream)
  : Res ((bool * Drawing) * stream) :=
  '(length_pair, iter) <- next_pair iter ;;
  _length <- (if Z.eqb (code length_pair) 90
              then assert_i32 (value length_pair)
              else Err (UnexpectedCode (code length_pair))) ;;
  let data := bmp_header in
  let header_length := length data in
  '(data, iter) <- read_hex_data data iter ;;
  len <- usize_sub (length data) header_length ;;
  let length_bytes := @nil Byte.byte in
  length_bytes <- le_write_i32 length_bytes (as_i32 len) ;;
  b0 <- vec_get length_bytes 0 ;; data <- vec_set data 2 b0 ;;
  b1 <- vec_get length_bytes 1 ;; data <- vec_set data 3 b1 ;;
  b2 <- vec_get length_bytes 2 ;; data <- vec_set data 4 b2 ;;
  b3 <- vec_get length_bytes 3 ;; data <- vec_set data 5 b3 ;;
  Ok ((true, set_thumbnail d (Some data)), iter).

(** The dispatch of [read_sections] on the section name. *)
Definition read_section (name : string) (d : Drawing) (iter : stream)
  : Res (Drawing * stream) :=
  if String.eqb name "HEADER" then
    '(h, n) <- header_read iter ;; Ok (set_header d h, skipn n iter)
  else if String.eqb name "CLASSES" then
    '(d', n) <- read_classes d iter ;; Ok (d', skipn n iter)
  else if String.eqb name "TABLES" then
    read_section_item "TABLE" read_specific_table d iter
  else if String.eqb name "BLOCKS" then
    read_section_item "BLOCK" read_block d iter
  else if String.eqb name "ENTITIES" then
    '(es, n) <- read_entity_seq iter ;;
    Ok (set_entities d (entities d ++ es), skipn n iter)
  else if String.eqb name "OBJECTS" then
    let '(os, n) := read_object_seq iter in
    Ok (set_objects d (objects d ++ os), skipn n iter)
  else if String.eqb name "THUMBNAILIMAGE" then
    '(_, d', iter') <- read_thumbnail d iter ;; Ok (d', iter')
  else
    iter' <- swallow_section iter ;; Ok (d, iter').

(** One iteration of the loop of [read_sections]. *)
Definition sections_body (st : Drawing * stream)
  : Res (Flow (Drawing * stream)) :=
  let (d, iter) := st in
  match iter with
  | [] => Ok (Break (d, []))
  | IErr e :: _ => Err e
  | IOk pair' :: rest =>
      if Z.eqb (code pair') 0 then
        str <- assert_string (value pair') ;;
        if String.eqb str "EOF" then Ok (Break (d, IOk pair' :: rest))
        else if String.eqb str "SECTION" then
          match rest with
          | IOk p2 :: rest2 =>
              match str_pair 2 p2 with
              | Some s =>
                  '(d', iter') <- read_section s d rest2 ;;
                  match iter' with
                  | IOk p3 :: rest3 =>
                      if is_str_pair 0 "ENDSEC" p3 then Ok (Continue (d', rest3))
                      else Err (UnexpectedCodePair p3 "expected 0/ENDSEC")
                  | IErr e :: _ => Err e
                  | [] => Err UnexpectedEndOfInput
                  end
              | None => Err (UnexpectedCodePair p2 "expected 2/<section-name>")
              end
          | IErr e :: _ => Err e
          | [] => Err UnexpectedEndOfInput
          end
        else Err (UnexpectedCodePair pair' "expected 0/SECTION")
      else Err (UnexpectedCodePair pair' "expected 0/SECTION or 0/EOF")
  end.

Definition read_sections (d : Drawing) (iter : stream) : Res (Drawing * stream) :=
  rust_loop sections_body (d, iter).

(** The check of [load] after [read_sections]. *)
Definition load_finish (drawing : Drawing) (iter : stream) : Res Drawing :=
  match iter with
  | IOk pair' :: _ =>
      if is_str_pair 0 "EOF" pair' then Ok drawing
      else Err (UnexpectedCodePair pair' "expected 0/EOF")
  | IErr e :: _ => Err e
  | [] => Ok drawing
  end.

(** The code-pair branch of [load]. *)
Definition load_code_pairs (iter : stream) : Res Drawing :=
  '(drawing, iter) <- read_sections drawing_default iter ;;
  load_finish drawing iter.

Definition load (reader : Source) : Res Drawing :=
  match read_line reader with
  | Some (Ok (first_line, reader)) =>
      if String.eqb first_line "AutoCAD DXB 1.0" then dxb_load reader
      else load_code_pairs (code_pair_iter reader first_line)
  | Some (Err e) => Err e
  | Some Panic => Panic
  | Some Stuck => Stuck
  | None => Err UnexpectedEndOfInput
  end.

(** ** The loop combinator *)

Lemma loop_fuel_enough {D : Type} (body : D * stream -> Res (Flow (D * stream))) :
  consuming body ->
  forall f1 f2 st, length (snd st) < f1 -> length (snd st) < f2 ->
  loop_fuel f1 body st = loop_fuel f2 body st.
Proof.
  intros [Hc _]. induction f1 as [|f1 IH]; intros f2 st H1 H2; [lia|].
  destruct f2 as [|f2]; [lia|]. simpl.
  destruct (body st) as [[st'|st']| | |] eqn:E; try reflexivity.
  apply Hc in E. unfold stream in *. apply IH; lia.
Qed.

Lemma rust_loop_unfold {D : Type} (body : D * stream -> Res (Flow (D * stream))) st :
  consuming body ->
  rust_loop body st =
  match body st with
  | Ok (Continue st') => rust_loop body st'
  | Ok (Break st') => Ok st'
  | Err e => Err e
  | Panic => Panic
  | Stuck => Stuck
  end.
Proof.
  intros Hb. unfold rust_loop at 1. simpl.
  destruct (body st) as [[st'|st']| | |] eqn:E; try reflexivity.
  pose proof (proj1 Hb _ _ E) as Hlt. unfold stream in *.
  unfold rust_loop. apply loop_fuel_enough; [exact Hb| |]; unfold stream in *; lia.
Qed.

Lemma loop_fuel_shorter {D : Type} (body : D * stream -> Res (Flow (D * stream))) :
  consuming body ->
  forall f st st', loop_fuel f body st = Ok st' -> length (snd st') <= length (snd st).
Proof.
  intros [Hc Hb]. induction f as [|f IH]; intros st st' H; simpl in H; [discriminate|].
  destruct (body st) as [[s1|s1]| | |] eqn:E; try discriminate.
  - apply IH in H. apply Hc in E. unfold stream in *. lia.
  - injection H as <-. apply Hb in E. exact E.
Qed.

Lemma rust_loop_shorter {D : Type} (body : D * stream -> Res (Flow (D * stream))) st st' :
  consuming body -> rust_loop body st = Ok st' -> length (snd st') <= length (snd st).
Proof. intros Hb H. exact (loop_fuel_shorter body Hb _ st st' H). Qed.

Lemma length_skipn_le {A : Type} (n : nat) (l : list A) : length (skipn n l) <= length l.
Proof. rewrite length_skipn. lia. Qed.

(** ** Each reader leaves a suffix of the iterator *)

Ltac split_res H :=
  repeat match type of H with
  | context [if ?b then _ else _] => destruct b eqn:?
  | context [match ?x with _ => _ end] => destruct x eqn:?
  end.

Ltac close_len :=
  repeat match goal with
  | H : Ok _ = Ok _ |- _ => injection H as; subst
  | H : Ok _ = Err _ |- _ => discriminate H
  | H : Ok _ = Panic |- _ => discriminate H
  | H : Ok _ = Stuck |- _ => discriminate H
  | H : Err _ = Ok _ |- _ => discriminate H
  | H : Panic = Ok _ |- _ => discriminate H
  | H : Stuck = Ok _ |- _ => discriminate H
  | H : Break _ = Continue _ |- _ => discriminate H
  | H : Continue _ = Break _ |- _ => discriminate H
  end;
  simpl in *; unfold stream in *;
  repeat match goal with
  | |- context [length (skipn ?n ?l)] => rewrite (length_skipn n l)
  end; try lia.

Lemma swallow_section_shorter iter iter' :
  swallow_section iter = Ok iter' -> length iter' <= length iter.
Proof.
  revert iter'. induction iter as [|[p|e] rest IH]; intros iter' H; simpl in H.
  - injection H as <-. simpl. lia.
  - unfold bind, assert_string in H. split_res H; close_len.
    all: apply IH in H; simpl; lia.
  - discriminate.
Qed.

Lemma section_item_body_consuming item_type callback :
  consuming (section_item_body item_type callback).
Proof.
  split; intros [d iter] st' H; simpl in H;
    unfold bind, assert_string in H; split_res H; close_len.
Qed.

Lemma read_section_item_shorter item_type callback d iter d' iter' :
  read_section_item item_type callback d iter = Ok (d', iter') ->
  length iter' <= length iter.
Proof.
  intros H. apply rust_loop_shorter in H; [exact H|].
  apply section_item_body_consuming.
Qed.

Lemma read_hex_data_shorter data iter data' iter' :
  read_hex_data data iter = Ok (data', iter') -> length iter' <= length iter.
Proof.
  revert data. induction iter as [|[p|e] rest IH]; intros data H; simpl in H.
  - injection H as <- <-. simpl. lia.
  - unfold bind, assert_string, parse_hex_string in H. split_res H; close_len.
    all: unfold bind in H; split_res H; close_len; apply IH in H; lia.
  - discriminate.
Qed.

Lemma usize_sub_cases a b : usize_sub a b = Ok (a - b) \/ usize_sub a b = Panic.
Proof. unfold usize_sub. destruct (Nat.ltb a b); auto. Qed.

(** After its hex loop [read_thumbnail] stores the new length through
    [LittleEndian::write_i32] into the empty [length_bytes]: it panics
    there, so it never returns normally. *)
Lemma read_thumbnail_not_ok d iter r : read_thumbnail d iter <> Ok r.
Proof.
  unfold read_thumbnail.
  destruct (next_pair iter) as [[length_pair iter1]| | |]; simpl; try discriminate.
  destruct (if Z.eqb (code length_pair) 90 then assert_i32 (value length_pair)
            else Err (UnexpectedCode (code length_pair))) as [l| | |];
    simpl; try discriminate.
  destruct (read_hex_data bmp_header iter1) as [[data iter2]| | |];
    simpl; try discriminate.
  destruct (usize_sub_cases (length data) 14) as [E|E]; rewrite E; simpl;
    discriminate.
Qed.

Lemma read_section_shorter name d iter d' iter' :
  read_section name d iter = Ok (d', iter') -> length iter' <= length iter.
Proof.
  unfold read_section.
  destruct (String.eqb name "HEADER").
  { unfold bind. intros H. split_res H; close_len. }
  destruct (String.eqb name "CLASSES").
  { unfold bind. intros H. split_res H; close_len. }
  destruct (String.eqb name "TABLES").
  { apply read_section_item_shorter. }
  destruct (String.eqb name "BLOCKS").
  { apply read_section_item_shorter. }
  destruct (String.eqb name "ENTITIES").
  { unfold bind. intros H. split_res H; close_len. }
  destruct (String.eqb name "OBJECTS").
  { destruct (read_object_seq iter) as [os n]. intros H. close_len. }
  destruct (String.eqb name "THUMBNAILIMAGE").
  { destruct (read_thumbnail d iter) as [r| | |] eqn:E; simpl; try discriminate.
    exfalso. exact (read_thumbnail_not_ok d iter r E). }
  destruct (swallow_section iter) as [s| | |] eqn:E; simpl; try discriminate.
  intros H. injection H as <- <-. exact (swallow_section_shorter _ _ E).
Qed.

Lemma sections_body_consuming : consuming sections_body.
Proof.
  split; intros [d iter] st' H; simpl in H;
    destruct iter as [|[p|e] rest]; try discriminate;
    try (injection H as <-; simpl; lia).
  all: unfold bind, assert_string in H; split_res H; close_len.
  all: match goal with
       | E : read_section _ _ _ = Ok (_, _) |- _ =>
           apply read_section_shorter in E; simpl in E; lia
       end.
Qed.

(** ** The claims *)

Lemma read_sections_unfold d iter :
  read_sections d iter =
  match sections_body (d, iter) with
  | Ok (Continue st') => read_sections (fst st') (snd st')
  | Ok (Break st') => Ok st'
  | Err e => Err e
  | Panic => Panic
  | Stuck => Stuck
  end.
Proof.
  unfold read_sections. rewrite rust_loop_unfold by exact sections_body_consuming.
  destruct (sections_body (d, iter)) as [[[d' i']|st']| | |]; reflexivity.
Qed.

Lemma read_section_item_unfold item_type callback d iter :
  read_section_item item_type callback d iter =
  match section_item_body item_type callback (d, iter) with
  | Ok (Continue st') => read_section_item item_type callback (fst st') (snd st')
  | Ok (Break st') => Ok st'
  | Err e => Err e
  | Panic => Panic
  | Stuck => Stuck
  end.
Proof.
  unfold read_section_item.
  rewrite rust_loop_unfold by exact (section_item_body_consuming item_type callback).
  destruct (section_item_body item_type callback (d, iter))
    as [[[d' i']|st']| | |]; reflexivity.
Qed.

(** C5.  The loop of [read_section_item] with expected item tag [item_type]
    and per-item [callback]: a pair whose code is not 0 is a fatal
    [UnexpectedCodePair]; [0/ENDSEC] is put back and the loop ends
    normally; [0/item_type] (for a tag other than [ENDSEC], which the loop
    tests first) runs the callback on the rest and loops on what it left;
    a code-0 string that is neither [ENDSEC] nor the tag is a fatal
    [UnexpectedCodePair]; the end of the stream is [UnexpectedEndOfInput]. *)
Theorem read_section_item_contract item_type callback d :
  (forall p rest, code p <> 0%Z ->
     read_section_item item_type callback d (IOk p :: rest) =
     Err (UnexpectedCodePair p "")) /\
  (forall rest,
     read_section_item item_type callback d (IOk (new_str 0 "ENDSEC") :: rest) =
     Ok (d, IOk (new_str 0 "ENDSEC") :: rest)) /\
  (item_type <> "ENDSEC" -> forall rest,
     read_section_item item_type callback d (IOk (new_str 0 item_type) :: rest) =
     ('(d', n) <- callback d rest ;;
      read_section_item item_type callback d' (skipn n rest))) /\
  (forall s rest, s <> "ENDSEC" -> s <> item_type ->
     read_section_item item_type callback d (IOk (new_str 0 s) :: rest) =
     Err (UnexpectedCodePair (new_str 0 s) "")) /\
  read_section_item item_type callback d [] = Err UnexpectedEndOfInput.
Proof.
  split; [|split; [|split; [|split]]].
  - intros p rest Hc. rewrite read_section_item_unfold. simpl.
    apply Z.eqb_neq in Hc. rewrite Hc. reflexivity.
  - intros rest. rewrite read_section_item_unfold. reflexivity.
  - intros Ht rest. rewrite read_section_item_unfold. simpl.
    apply String.eqb_neq in Ht. rewrite Ht, String.eqb_refl.
    destruct (callback d rest) as [[d' n]| | |]; reflexivity.
  - intros s rest Hs Ht. rewrite read_section_item_unfold. simpl.
    apply String.eqb_neq in Hs, Ht. rewrite Hs, Ht. reflexivity.
  - rewrite read_section_item_unfold. reflexivity.
Qed.

(** C8.  [0/EOF] at the top level is put back and ends the section loop
    normally; a stream that ends with no [0/EOF] still loads; after the
    section loop, a next pair that is not [0/EOF] fails the load with
    [UnexpectedCodePair]. *)
Theorem load_eof_handling :
  (forall d rest,
     read_sections d (IOk (new_str 0 "EOF") :: rest) =
     Ok (d, IOk (new_str 0 "EOF") :: rest)) /\
  (forall d, read_sections d [] = Ok (d, [])) /\
  (forall iter d,
     read_sections drawing_default iter = Ok (d, []) ->
     load_code_pairs iter = Ok d) /\
  (forall d p rest, is_str_pair 0 "EOF" p = false ->
     load_finish d (IOk p :: rest) = Err (UnexpectedCodePair p "expected 0/EOF")).
Proof.
  split; [|split; [|split]].
  - intros d rest. rewrite read_sections_unfold. reflexivity.
  - intros d. rewrite read_sections_unfold. reflexivity.
  - intros iter d H. unfold load_code_pairs. rewrite H. reflexivity.
  - intros d p rest H. simpl. rewrite H. reflexivity.
Qed.

(** C9.  [load] reads exactly one line: the signature line
    ["AutoCAD DXB 1.0"] hands the rest of the source to the DXB reader and
    returns its result; any other line becomes the first line of the
    code-pair iterator; a source with no line is [UnexpectedEndOfInput]. *)
Theorem load_sniff :
  (forall reader line rest,
     read_line reader = Some (Ok (line, rest)) -> line = "AutoCAD DXB 1.0" ->
     load reader = dxb_load rest) /\
  (forall reader line rest,
     read_line reader = Some (Ok (line, rest)) -> line <> "AutoCAD DXB 1.0" ->
     load reader = load_code_pairs (code_pair_iter rest line)) /\
  (forall reader, read_line reader = None -> load reader = Err UnexpectedEndOfInput).
Proof.
  split; [|split].
  - intros reader line rest H ->. unfold load. rewrite H. reflexivity.
  - intros reader line rest H Hn. unfold load. rewrite H.
    apply String.eqb_neq in Hn. rewrite Hn. reflexivity.
  - intros reader H. unfold load. rewrite H. reflexivity.
Qed.

Lemma swallow_section_skips body rest :
  forallb skippable_pair body = true ->
  swallow_section (map IOk body ++ IOk (new_str 0 "ENDSEC") :: rest) =
  Ok (IOk (new_str 0 "ENDSEC") :: rest).
Proof.
  induction body as [|p body IH]; simpl; intros H; [reflexivity|].
  apply andb_prop in H as [Hp Hb]. unfold skippable_pair in Hp.
  destruct (Z.eqb (code p) 0).
  - destruct (value p) as [| | | | |s]; try discriminate. simpl.
    apply negb_true_iff in Hp. rewrite Hp. exact (IH Hb).
  - exact (IH Hb).
Qed.

Lemma read_section_unknown name d iter :
  ~ In name known_section_names ->
  read_section name d iter = (iter' <- swallow_section iter ;; Ok (d, iter')).
Proof.
  intros H. unfold read_section.
  repeat match goal with
  | |- context [String.eqb name ?k] =>
      replace (String.eqb name k) with false
        by (symmetry; apply String.eqb_neq; intros ->; apply H; simpl; auto 10)
  end.
  reflexivity.
Qed.

(** C4.  A well-formed section whose name the dispatcher does not know
    ([0/SECTION], [2/name], pairs other than [0/ENDSEC], [0/ENDSEC]) is one
    iteration of the section loop that leaves the drawing as it was:
    whatever was read before it, the load goes on exactly as if the section
    were absent. *)
Theorem unknown_section_skipped d name body rest :
  ~ In name known_section_names ->
  forallb skippable_pair body = true ->
  sections_body (d, map IOk (section name body) ++ rest) = Ok (Continue (d, rest)) /\
  read_sections d (map IOk (section name body) ++ rest) = read_sections d rest /\
  load_code_pairs (map IOk (section name body) ++ rest) = load_code_pairs rest.
Proof.
  intros Hn Hb.
  assert (E : sections_body (d, map IOk (section name body) ++ rest) =
              Ok (Continue (d, rest))).
  { unfold section. rewrite !map_app, <- !app_assoc. simpl.
    rewrite read_section_unknown by exact Hn.
    rewrite swallow_section_skips by exact Hb. reflexivity. }
  assert (R : forall d0, read_sections d0 (map IOk (section name body) ++ rest) =
                         read_sections d0 rest).
  { intros d0. rewrite read_sections_unfold.
    unfold section. rewrite !map_app, <- !app_assoc. simpl.
    rewrite read_section_unknown by exact Hn.
    rewrite swallow_section_skips by exact Hb. reflexivity. }
  split; [exact E|split; [apply R|]].
  unfold load_code_pairs. rewrite R. reflexivity.
Qed.

Lemma hex_value_lt c n : hex_value c = Some n -> n < 16.
Proof.
  unfold hex_value.
  destruct (andb (Nat.leb 48 (nat_of_ascii c)) (Nat.leb (nat_of_ascii c) 57)) eqn:E1.
  { intros H. injection H as <-. apply andb_prop in E1 as [_ E].
    apply Nat.leb_le in E. lia. }
  destruct (andb (Nat.leb 65 (nat_of_ascii c)) (Nat.leb (nat_of_ascii c) 70)) eqn:E2.
  { intros H. injection H as <-. apply andb_prop in E2 as [_ E].
    apply Nat.leb_le in E. lia. }
  destruct (andb (Nat.leb 97 (nat_of_ascii c)) (Nat.leb (nat_of_ascii c) 102)) eqn:E3.
  { intros H. injection H as <-. apply andb_prop in E3 as [_ E].
    apply Nat.leb_le in E. lia. }
  discriminate.
Qed.

Lemma valid_hex_parses : forall s,
  valid_hex_string s = true -> exists bytes, parse_hex_chars s = Ok bytes.
Proof.
  fix IH 1. intros s H.
  destruct s as [|a [|b rest]].
  - exists []. reflexivity.
  - discriminate.
  - simpl in H. cbn [parse_hex_chars].
    destruct (hex_value a) as [x|] eqn:Ea; [|discriminate].
    destruct (hex_value b) as [y|] eqn:Eb; [|discriminate].
    destruct (Byte.of_nat (16 * x + y)) as [byte|] eqn:Eo.
    + destruct (IH rest H) as [bytes Hr]. rewrite Hr. eexists. reflexivity.
    + exfalso. apply Byte.of_nat_None_iff in Eo.
      apply hex_value_lt in Ea, Eb. lia.
Qed.

Lemma read_hex_data_valid data hexes tail :
  forallb valid_hex_string hexes = true ->
  (tail = [] \/ exists v rest, tail = IOk (mk_pair 0 v) :: rest) ->
  exists data', read_hex_data data (map (fun h => IOk (new_str 310 h)) hexes ++ tail)
                = Ok (data', tail).
Proof.
  intros Hh Ht. revert data.
  induction hexes as [|h hexes IH]; intros data; simpl in *.
  - destruct Ht as [->|(v & rest & ->)]; exists data; reflexivity.
  - apply andb_prop in Hh as [H1 H2].
    destruct (valid_hex_parses h H1) as [bytes Hp].
    unfold parse_hex_string. rewrite Hp. simpl.
    exact (IH H2 (data ++ bytes)).
Qed.

(** C1.  For a well-formed THUMBNAILIMAGE body (a [90] pair, [310] pairs of
    valid even-length hexadecimal strings, then a code-0 marker or the end
    of the stream) [read_thumbnail] does not return: after the hex loop it
    stores the length through [LittleEndian::write_i32] into the empty
    vector [length_bytes], which panics. *)
Theorem read_thumbnail_wellformed_panics d i hexes tail :
  forallb valid_hex_string hexes = true ->
  (tail = [] \/ exists v rest, tail = IOk (mk_pair 0 v) :: rest) ->
  read_thumbnail d (IOk (new_i32 90 i) :: map (fun h => IOk (new_str 310 h)) hexes ++ tail)
  = Panic.
Proof.
  intros Hh Ht.
  destruct (read_hex_data_valid bmp_header hexes tail Hh Ht) as [data' E].
  unfold read_thumbnail. cbn -[read_hex_data bmp_header usize_sub le_write_i32].
  rewrite E. cbn -[usize_sub le_write_i32].
  destruct (usize_sub_cases (length data') 14) as [U|U];
    rewrite U; reflexivity.
Qed.

(** C10.  From R2000 on, writing a thumbnail [Some data] panics exactly
    when [data] is shorter than its 14-byte header ([data.len() - 14]
    underflows; [data[14..]] is out of range as well), and returns
    normally otherwise. *)
Theorem write_thumbnail_needs_header d data :
  version_ge (header_version (header d)) R2000 = true ->
  thumbnail d = Some data ->
  (length data < 14 -> write_thumbnail d = Panic) /\
  (14 <= length data -> exists out, write_thumbnail d = Ok out).
Proof.
  intros Hv Ht. unfold write_thumbnail. rewrite Hv, Ht.
  split; intros Hl.
  - unfold usize_sub. apply Nat.ltb_lt in Hl. rewrite Hl. reflexivity.
  - unfold usize_sub, slice_from.
    replace (Nat.ltb (length data) 14) with false by (symmetry; apply Nat.ltb_ge; lia).
    replace (Nat.leb 14 (length data)) with true by (symmetry; apply Nat.leb_le; lia).
    eexists. reflexivity.
Qed.

Lemma write_classes_ok d :
  write_classes d =
  Ok (match classes d with
      | [] => []
      | cs => section "CLASSES" (flat_map (class_write (header_version (header d))) cs)
      end).
Proof. unfold write_classes. destruct (classes d); reflexivity. Qed.

Lemma write_blocks_ok d wh :
  write_blocks d wh =
  Ok (match blocks d with
      | [] => []
      | bs => section "BLOCKS" (flat_map (block_write (header_version (header d)) wh) bs)
      end).
Proof. unfold write_blocks. destruct (blocks d); reflexivity. Qed.

Lemma write_thumbnail_ok d :
  (forall data, thumbnail d = Some data -> 14 <= length data) ->
  write_thumbnail d =
  Ok (match thumbnail d with
      | Some data =>
          if version_ge (header_version (header d)) R2000
          then section "THUMBNAILIMAGE"
                 (new_i32 90 (as_i32 (length data - 14)) ::
                  map (fun s => new_str 310 (hex_line s)) (chunks 128 (skipn 14 data)))
          else []
      | None => []
      end).
Proof.
  intros Hd. unfold write_thumbnail.
  destruct (thumbnail d) as [data|] eqn:Et;
    destruct (version_ge (header_version (header d)) R2000); try reflexivity.
  specialize (Hd data eq_refl). unfold usize_sub, slice_from.
  replace (Nat.ltb (length data) 14) with false by (symmetry; apply Nat.ltb_ge; lia).
  replace (Nat.leb 14 (length data)) with true by (symmetry; apply Nat.leb_le; lia).
  reflexivity.
Qed.

(** C6.  [save_internal] writes the prelude, the header, the CLASSES
    section only for a non-empty class list, the TABLES section always, the
    BLOCKS section only for a non-empty block list, the ENTITIES and OBJECTS
    sections always, the THUMBNAILIMAGE section (from R2000 on, when there
    is a thumbnail), then [0/EOF].  A thumbnail buffer holds its 14-byte
    header (the data-model invariant; see C10 for a shorter one). *)
Theorem save_internal_layout d :
  (forall data, thumbnail d = Some data -> 14 <= length data) ->
  let v := header_version (header d) in
  let wh := orb (version_ge v R13) (header_handles_enabled (header d)) in
  save_internal d =
  Ok (prelude ++
      header_write (header d) ++
      (match classes d with
       | [] => []
       | cs => section "CLASSES" (flat_map (class_write v) cs)
       end) ++
      section "TABLES" (tables_write d wh) ++
      (match blocks d with
       | [] => []
       | bs => section "BLOCKS" (flat_map (block_write v wh) bs)
       end) ++
      section "ENTITIES" (flat_map (entity_write v wh) (entities d)) ++
      section "OBJECTS" (flat_map (object_write v) (objects d)) ++
      (match thumbnail d with
       | Some data =>
           if version_ge v R2000
           then section "THUMBNAILIMAGE"
                  (new_i32 90 (as_i32 (length data - 14)) ::
                   map (fun s => new_str 310 (hex_line s)) (chunks 128 (skipn 14 data)))
           else []
       | None => []
       end) ++
      [new_str 0 "EOF"]).
Proof.
  intros Hd v wh. unfold save_internal.
  rewrite write_classes_ok, write_blocks_ok, (write_thumbnail_ok d Hd).
  reflexivity.
Qed.

(** ** Further properties of the reader and the writer *)


Lemma loop_fuel_break {D : Type} (body : D * stream -> Res (Flow (D * stream))) :
  forall f st st', loop_fuel f body st = Ok st' -> exists st0, body st0 = Ok (Break st').
Proof.
  induction f as [|f IH]; intros st st' H; simpl in H; [discriminate|].
  destruct (body st) as [[s1|s1]| | |] eqn:E; try discriminate.
  - exact (IH _ _ H).
  - injection H as <-. eauto.
Qed.

Lemma skipn_map_app (body : list CodePair) (tail : stream) :
  skipn (length body) (map IOk body ++ tail) = tail.
Proof. induction body as [|p body IH]; simpl; auto. Qed.

Lemma swallow_section_to_end body :
  forallb skippable_pair body = true -> swallow_section (map IOk body) = Ok [].
Proof.
  induction body as [|p body IH]; simpl; intros H; [reflexivity|].
  apply andb_prop in H as [Hp Hb]. unfold skippable_pair in Hp.
  destruct (Z.eqb (code p) 0).
  - destruct (value p) as [| | | | |s]; try discriminate. simpl.
    apply negb_true_iff in Hp. rewrite Hp. exact (IH Hb).
  - exact (IH Hb).
Qed.

Lemma swallow_table_skips body m rest :
  forallb table_skippable body = true -> table_stop m = true ->
  swallow_table (map IOk body ++ IOk (new_str 0 m) :: rest) =
  Ok (IOk (new_str 0 m) :: rest).
Proof.
  intros Hb Hm. induction body as [|p body IH]; simpl in *.
  - rewrite Hm. reflexivity.
  - apply andb_prop in Hb as [Hp Hb]. unfold table_skippable in Hp.
    destruct (Z.eqb (code p) 0).
    + destruct (value p) as [| | | | |s]; try discriminate. simpl.
      apply negb_true_iff in Hp. rewrite Hp. exact (IH Hb).
    + exact (IH Hb).
Qed.

(** The step of the section loop over one framed section. *)
Lemma read_sections_section d name body rest :
  read_sections d (map IOk (section name body) ++ rest) =
  match read_section name d (map IOk body ++ IOk (new_str 0 "ENDSEC") :: rest) with
  | Ok (d', IOk p3 :: rest3) =>
      if is_str_pair 0 "ENDSEC" p3 then read_sections d' rest3
      else Err (UnexpectedCodePair p3 "expected 0/ENDSEC")
  | Ok (_, IErr e :: _) => Err e
  | Ok (_, []) => Err UnexpectedEndOfInput
  | Err e => Err e
  | Panic => Panic
  | Stuck => Stuck
  end.
Proof.
  rewrite read_sections_unfold. unfold section.
  rewrite !map_app, <- !app_assoc. simpl.
  destruct (read_section name d (map IOk body ++ IOk (new_str 0 "ENDSEC") :: rest))
    as [[d' [|[p|e] r]]| | |]; try reflexivity.
  simpl. destruct (is_str_pair 0 "ENDSEC" p); reflexivity.
Qed.







Lemma string_length_append s1 s2 :
  String.length (String.append s1 s2) = String.length s1 + String.length s2.
Proof. induction s1 as [|c s1 IH]; simpl; auto. Qed.

Lemma string_append_assoc s1 s2 s3 :
  String.append s1 (String.append s2 s3) = String.append (String.append s1 s2) s3.
Proof. induction s1 as [|c s1 IH]; simpl; congruence. Qed.

Lemma string_append_nil_r s : String.append s EmptyString = s.
Proof. induction s as [|c s IH]; simpl; congruence. Qed.

Lemma hex_line_fold chunk acc :
  fold_left (fun line b => String.append line (fmt_upper_hex b)) chunk acc =
  String.append acc (hex_line chunk).
Proof.
  unfold hex_line. revert acc.
  induction chunk as [|b chunk IH]; intros acc; simpl.
  - symmetry. apply string_append_nil_r.
  - rewrite (IH (String.append acc (fmt_upper_hex b))), (IH (fmt_upper_hex b)).
    apply eq_sym, string_append_assoc.
Qed.

Lemma hex_line_cons b chunk :
  hex_line (b :: chunk) = String.append (fmt_upper_hex b) (hex_line chunk).
Proof. unfold hex_line at 1. simpl. apply hex_line_fold. Qed.

Lemma byte_to_nat_lt b : Byte.to_nat b < 256.
Proof.
  pose proof (Byte.to_of_nat_option_map (Byte.to_nat b)) as E.
  rewrite Byte.of_to_nat in E. simpl in E.
  destruct (Nat.leb (Byte.to_nat b) 255) eqn:L; [apply Nat.leb_le in L; lia|discriminate].
Qed.

Lemma hex_value_digit d : d < 16 -> hex_value (hex_digit_upper d) = Some d.
Proof.
  intros H.
  do 16 (destruct d as [|d]; [reflexivity|]). lia.
Qed.

(** The chunks of [slice.chunks(n)]: they cover the slice in order, none is
    empty or longer than [n], all but the last have length [n], and there are
    [ceil(len / n)] of them. *)
Lemma chunks_aux_spec {A : Type} (n : nat) : 0 < n ->
  forall f (l : list A), length l <= f ->
  concat (chunks_aux f n l) = l /\
  Forall (fun c => 0 < length c <= n) (chunks_aux f n l) /\
  Forall (fun c => length c = n) (removelast (chunks_aux f n l)) /\
  length (chunks_aux f n l) = (length l + n - 1) / n.
Proof.
  intros Hn. induction f as [|f IH]; intros l Hl.
  - destruct l; [|simpl in Hl; lia]. simpl.
    split; [reflexivity|split; [constructor|split; [constructor|]]].
    symmetry. apply Nat.div_small. lia.
  - destruct l as [|a l'].
    { simpl. split; [reflexivity|split; [constructor|split; [constructor|]]].
      symmetry. apply Nat.div_small. lia. }
    set (l := a :: l') in *.
    assert (Hlen : length l = S (length l')) by reflexivity.
    cbn [chunks_aux]. fold l.
    assert (Hs : length (skipn n l) <= f) by (rewrite length_skipn; lia).
    destruct (IH (skipn n l) Hs) as (Hc & Hb & Hr & Hk).
    split; [|split; [|split]].
    + simpl. rewrite Hc. apply firstn_skipn.
    + constructor; [|exact Hb]. rewrite length_firstn. lia.
    + destruct (Nat.le_gt_cases (length l) n) as [Le|Gt].
      * assert (E : skipn n l = []) by (apply skipn_all2; lia).
        rewrite E. destruct f; constructor.
      * destruct (chunks_aux f n (skipn n l)) as [|c cs] eqn:E.
        { constructor. }
        change (removelast (firstn n l :: c :: cs)) with
          (firstn n l :: removelast (c :: cs)).
        constructor; [rewrite length_firstn; lia|exact Hr].
    + simpl length at 1. rewrite Hk, length_skipn.
      destruct (Nat.le_gt_cases (length l) n) as [Le|Gt].
      * replace (length l - n + n - 1) with (n - 1) by lia.
        replace (length l + n - 1) with (1 * n + (length l - 1)) by lia.
        rewrite Nat.div_add_l by lia.
        rewrite (Nat.div_small (n - 1)) by lia.
        rewrite (Nat.div_small (length l - 1)) by lia. reflexivity.
      * replace (length l + n - 1) with (1 * n + (length l - n + n - 1)) by lia.
        rewrite Nat.div_add_l by lia. reflexivity.
Qed.

(** X1.  [swallow_section] succeeds exactly on a run of pairs other than
    [0/ENDSEC] followed by [0/ENDSEC] (put back) or by the end of the
    stream; it consumes that run and nothing more. *)
Theorem swallow_section_spec iter iter' :
  swallow_section iter = Ok iter' <->
  exists body, forallb skippable_pair body = true /\ iter = map IOk body ++ iter' /\
    (iter' = [] \/ exists rest, iter' = IOk (new_str 0 "ENDSEC") :: rest).
Proof.
  split.
  - revert iter'. induction iter as [|[p|e] rest IH]; intros iter' H; simpl in H.
    + injection H as <-. exists []. auto.
    + destruct (Z.eqb (code p) 0) eqn:Ec.
      * destruct (value p) as [| | | | |s] eqn:Ev; simpl in H; try discriminate.
        destruct (String.eqb s "ENDSEC") eqn:Es.
        -- injection H as <-. exists []. split; [reflexivity|split; [reflexivity|right]].
           exists rest. apply Z.eqb_eq in Ec. apply String.eqb_eq in Es.
           destruct p as [c v]; simpl in Ec, Ev; subst; reflexivity.
        -- destruct (IH _ H) as (body & Hb & -> & Ht). exists (p :: body).
           simpl. unfold skippable_pair at 1. rewrite Ec, Ev, Es, Hb. auto.
      * destruct (IH _ H) as (body & Hb & -> & Ht). exists (p :: body).
        simpl. unfold skippable_pair at 1. rewrite Ec, Hb. auto.
    + discriminate.
  - intros (body & Hb & -> & [->|(rest & ->)]).
    + rewrite app_nil_r. apply swallow_section_to_end. exact Hb.
    + apply swallow_section_skips. exact Hb.
Qed.

(** X2.  [swallow_table] succeeds exactly on a run of pairs followed by a
    [0/TABLE], [0/ENDSEC] or [0/ENDTAB] marker: it stops at the first such
    marker and puts it back. *)
Theorem swallow_table_spec iter iter' :
  swallow_table iter = Ok iter' <->
  exists body m rest, forallb table_skippable body = true /\ table_stop m = true /\
    iter = map IOk body ++ IOk (new_str 0 m) :: rest /\
    iter' = IOk (new_str 0 m) :: rest.
Proof.
  split.
  - revert iter'. induction iter as [|[p|e] rest IH]; intros iter' H; simpl in H.
    + discriminate.
    + destruct (Z.eqb (code p) 0) eqn:Ec.
      * destruct (value p) as [| | | | |s] eqn:Ev; simpl in H; try discriminate.
        destruct (table_stop s) eqn:Es.
        -- injection H as <-. exists [], s, rest.
           apply Z.eqb_eq in Ec. destruct p as [c v]; simpl in Ec, Ev; subst.
           auto.
        -- destruct (IH _ H) as (body & m & r & Hb & Hm & -> & ->).
           exists (p :: body), m, r. simpl. unfold table_skippable at 1.
           rewrite Ec, Ev, Es, Hb. auto.
      * destruct (IH _ H) as (body & m & r & Hb & Hm & -> & ->).
        exists (p :: body), m, r. simpl. unfold table_skippable at 1.
        rewrite Ec, Hb. auto.
    + discriminate.
  - intros (body & m & rest & Hb & Hm & -> & ->).
    apply swallow_table_skips; assumption.
Qed.

(** X3.  Unlike the section skipper, the table skipper never accepts the
    end of the stream: a run of pairs with no stop marker ends in
    [UnexpectedEndOfInput], and an error item inside the run is returned. *)
Theorem swallow_table_needs_marker body :
  forallb table_skippable body = true ->
  swallow_table (map IOk body) = Err UnexpectedEndOfInput /\
  (forall e rest, swallow_table (map IOk body ++ IErr e :: rest) = Err e).
Proof.
  intros Hb. split; [|intros e rest]; induction body as [|p body IH]; simpl in *;
    try reflexivity;
    apply andb_prop in Hb as [Hp Hb]; unfold table_skippable in Hp;
    (destruct (Z.eqb (code p) 0);
     [destruct (value p) as [| | | | |s]; try discriminate; simpl;
      apply negb_true_iff in Hp; rewrite Hp|]; exact (IH Hb)).
Qed.

(** X4.  When the repeated-item reader returns normally, the iterator it
    leaves starts with the [0/ENDSEC] it put back: the end of the stream is
    never a normal end of a section's item list. *)
Theorem read_section_item_ends_at_endsec item_type callback d iter d' iter' :
  read_section_item item_type callback d iter = Ok (d', iter') ->
  exists rest, iter' = IOk (new_str 0 "ENDSEC") :: rest.
Proof.
  intros H. unfold read_section_item, rust_loop in H.
  destruct (loop_fuel_break _ _ _ _ H) as [[d0 i0] E].
  simpl in E. destruct i0 as [|[p|e] rest]; try discriminate.
  destruct (Z.eqb (code p) 0) eqn:Ec; [|discriminate].
  destruct (value p) as [| | | | |s] eqn:Ev; simpl in E; try discriminate.
  destruct (String.eqb s "ENDSEC") eqn:Es.
  - injection E as <- <-. exists rest. apply Z.eqb_eq in Ec. apply String.eqb_eq in Es.
    destruct p as [c v]; simpl in Ec, Ev; subst; reflexivity.
  - destruct (String.eqb s item_type); [|discriminate].
    destruct (callback d0 rest) as [[d1 n]| | |]; discriminate.
Qed.

(** X5.  The framing errors of the section loop: a top-level pair whose
    code is not 0, a code-0 string other than [SECTION] and [EOF], a
    [0/SECTION] not followed by a code-2 string, a [0/SECTION] at the end of
    the stream, and an error item are each returned at once. *)
Theorem read_sections_framing_errors d :
  (forall p rest, code p <> 0%Z ->
     read_sections d (IOk p :: rest) =
     Err (UnexpectedCodePair p "expected 0/SECTION or 0/EOF")) /\
  (forall s rest, s <> "EOF" -> s <> "SECTION" ->
     read_sections d (IOk (new_str 0 s) :: rest) =
     Err (UnexpectedCodePair (new_str 0 s) "expected 0/SECTION")) /\
  (forall p rest, str_pair 2 p = None ->
     read_sections d (IOk (new_str 0 "SECTION") :: IOk p :: rest) =
     Err (UnexpectedCodePair p "expected 2/<section-name>")) /\
  read_sections d [IOk (new_str 0 "SECTION")] = Err UnexpectedEndOfInput /\
  (forall e rest, read_sections d (IErr e :: rest) = Err e).
Proof.
  split; [|split; [|split; [|split]]].
  - intros p rest Hc. rewrite read_sections_unfold. simpl.
    apply Z.eqb_neq in Hc. rewrite Hc. reflexivity.
  - intros s rest He Hs. rewrite read_sections_unfold. simpl.
    apply String.eqb_neq in He, Hs. rewrite He, Hs. reflexivity.
  - intros p rest Hp. rewrite read_sections_unfold. simpl. rewrite Hp. reflexivity.
  - rewrite read_sections_unfold. reflexivity.
  - intros e rest. rewrite read_sections_unfold. reflexivity.
Qed.

(** X6.  After a section's reader, the section loop requires [0/ENDSEC]: a
    reader that leaves the end of the stream makes the load fail with
    [UnexpectedEndOfInput], one that leaves another pair fails with
    [UnexpectedCodePair]; so an unknown section that runs to the end of the
    stream is an error, although its skipper accepts the end. *)
Theorem section_needs_endsec d name rest2 :
  (forall d', read_section name d rest2 = Ok (d', []) ->
     read_sections d (IOk (new_str 0 "SECTION") :: IOk (new_str 2 name) :: rest2) =
     Err UnexpectedEndOfInput) /\
  (forall d' p rest3, read_section name d rest2 = Ok (d', IOk p :: rest3) ->
     is_str_pair 0 "ENDSEC" p = false ->
     read_sections d (IOk (new_str 0 "SECTION") :: IOk (new_str 2 name) :: rest2) =
     Err (UnexpectedCodePair p "expected 0/ENDSEC")) /\
  (~ In name known_section_names -> forall body, forallb skippable_pair body = true ->
     read_sections d (map IOk ([new_str 0 "SECTION"; new_str 2 name] ++ body)) =
     Err UnexpectedEndOfInput).
Proof.
  split; [|split].
  - intros d' H. rewrite read_sections_unfold. simpl. rewrite H. reflexivity.
  - intros d' p rest3 H Hp. rewrite read_sections_unfold. simpl. rewrite H. simpl. rewrite Hp.
    reflexivity.
  - intros Hn body Hb. rewrite read_sections_unfold. simpl.
    rewrite read_section_unknown by exact Hn.
    rewrite swallow_section_to_end by exact Hb. reflexivity.
Qed.

(** X7.  A HEADER section whose body the header reader consumes exactly
    replaces the drawing's header with the one read, and the load goes on
    after the section: a later HEADER section overrides an earlier one. *)
Theorem header_section_replaces d body rest h :
  header_read (map IOk body ++ IOk (new_str 0 "ENDSEC") :: rest) = Ok (h, length body) ->
  read_sections d (map IOk (section "HEADER" body) ++ rest) =
  read_sections (set_header d h) rest.
Proof.
  intros H. rewrite read_sections_section. unfold read_section. simpl.
  rewrite H. simpl. rewrite skipn_map_app. reflexivity.
Qed.

(** X8.  An ENTITIES (OBJECTS) section whose body the entity (object)
    reader consumes exactly appends the entities (objects) read to those
    the drawing already has: repeated sections accumulate in order. *)
Theorem entities_objects_sections_append d body rest :
  (forall es, read_entity_seq (map IOk body ++ IOk (new_str 0 "ENDSEC") :: rest) =
              Ok (es, length body) ->
     read_sections d (map IOk (section "ENTITIES" body) ++ rest) =
     read_sections (set_entities d (entities d ++ es)) rest) /\
  (forall os, read_object_seq (map IOk body ++ IOk (new_str 0 "ENDSEC") :: rest) =
              (os, length body) ->
     read_sections d (map IOk (section "OBJECTS" body) ++ rest) =
     read_sections (set_objects d (objects d ++ os)) rest).
Proof.
  split.
  - intros es H. rewrite read_sections_section. unfold read_section. simpl.
    rewrite H. simpl. rewrite skipn_map_app. reflexivity.
  - intros os H. rewrite read_sections_section. unfold read_section. simpl.
    rewrite H. simpl. rewrite skipn_map_app. reflexivity.
Qed.





(** X13.  From R2000 on, a thumbnail of at least 14 bytes is written as
    its payload (the bytes after the header) cut into 310 lines of 128
    bytes in order, the last one possibly shorter and none empty, so
    [ceil((len - 14) / 128)] lines; the 90 value is [len - 14] while that
    fits an [i32]. *)
Theorem write_thumbnail_chunking d data :
  version_ge (header_version (header d)) R2000 = true ->
  thumbnail d = Some data -> 14 <= length data ->
  exists cs,
    write_thumbnail d =
      Ok (section "THUMBNAILIMAGE"
            (new_i32 90 (as_i32 (length data - 14)) ::
             map (fun c => new_str 310 (hex_line c)) cs)) /\
    concat cs = skipn 14 data /\
    Forall (fun c => 0 < length c <= 128) cs /\
    Forall (fun c => length c = 128) (removelast cs) /\
    length cs = (length data - 14 + 127) / 128 /\
    (Z.of_nat (length data - 14) < 2 ^ 31 -> as_i32 (length data - 14) = Z.of_nat (length data - 14))%Z.
Proof.
  intros Hv Ht Hl.
  exists (chunks 128 (skipn 14 data)).
  assert (Hd : forall x, thumbnail d = Some x -> 14 <= length x)
    by (intros x E; rewrite Ht in E; injection E as <-; exact Hl).
  destruct (chunks_aux_spec 128 ltac:(lia) (length (skipn 14 data)) (skipn 14 data)
              (le_n _)) as (Hc & Hb & Hr & Hk).
  split; [|split; [exact Hc|split; [exact Hb|split; [exact Hr|split]]]].
  - rewrite (write_thumbnail_ok d Hd), Ht, Hv. reflexivity.
  - unfold chunks. rewrite Hk, length_skipn. f_equal. lia.
  - intros Hs. unfold as_i32.
    rewrite Z.mod_small by lia.
    destruct (Z.leb_spec (2 ^ 31) (Z.of_nat (length data - 14))); [lia|reflexivity].
Qed.

(** X14.  A 310 line has two characters per byte, except one for each
    byte below [0x10] ([{:X}] writes no leading zero). *)
Theorem hex_line_length chunk :
  String.length (hex_line chunk) =
  2 * length chunk - length (filter (fun b => Nat.ltb (Byte.to_nat b) 16) chunk).
Proof.
  induction chunk as [|b chunk IH]; [reflexivity|].
  rewrite hex_line_cons, string_length_append, IH.
  pose proof (filter_length_le (fun b => Nat.ltb (Byte.to_nat b) 16) chunk).
  unfold fmt_upper_hex. cbn [filter length].
  destruct (Nat.ltb (Byte.to_nat b) 16); simpl String.length; cbn [length]; lia.
Qed.

(** X15.  Where every byte of a chunk is at least [0x10], its 310 line
    decodes back to the chunk: the hex writer and the hex parser agree on
    such bytes. *)
Theorem hex_line_roundtrip chunk data :
  (forall b, In b chunk -> 16 <= Byte.to_nat b) ->
  parse_hex_string (hex_line chunk) data = Ok (data ++ chunk).
Proof.
  intros H. unfold parse_hex_string.
  assert (P : parse_hex_chars (hex_line chunk) = Ok chunk).
  { induction chunk as [|b chunk IH]; [reflexivity|].
    rewrite hex_line_cons.
    assert (Hb : 16 <= Byte.to_nat b) by (apply H; left; reflexivity).
    pose proof (byte_to_nat_lt b) as Hlt.
    unfold fmt_upper_hex.
    replace (Nat.ltb (Byte.to_nat b) 16) with false by (symmetry; apply Nat.ltb_ge; lia).
    cbn [String.append parse_hex_chars].
    rewrite (hex_value_digit (Byte.to_nat b / 16)) by (apply Nat.Div0.div_lt_upper_bound; lia).
    rewrite (hex_value_digit (Byte.to_nat b mod 16)) by (apply Nat.mod_upper_bound; lia).
    rewrite <- (Nat.div_mod (Byte.to_nat b) 16) by lia.
    rewrite Byte.of_to_nat.
    rewrite IH by (intros x Hx; apply H; right; exact Hx). reflexivity. }
  rewrite P. reflexivity.
Qed.

(** X16.  A code-pair stream that is empty, or starts with [0/EOF], loads as
    the default drawing: nothing after the top-level [0/EOF] is read. *)
Theorem load_code_pairs_empty_or_eof :
  load_code_pairs [] = Ok drawing_default /\
  (forall rest, load_code_pairs (IOk (new_str 0 "EOF") :: rest) = Ok drawing_default).
Proof.
  split.
  - unfold load_code_pairs. rewrite read_sections_unfold. reflexivity.
  - intros rest. unfold load_code_pairs. rewrite read_sections_unfold. reflexivity.
Qed.

End Dxf.

(** ** Concrete runs

    A drawing whose header is just its version; every other record type is
    [unit].  Readers that consume nothing; a line reader over a list of
    lines. *)
Abbreviation UDrawing :=
  (@Drawing AcadVersion unit unit unit unit unit unit unit unit unit unit unit unit unit).
Abbreviation udrawing v t :=
  (@mk_drawing AcadVersion unit unit unit unit unit unit unit unit unit unit unit unit unit
     v [] [] [] [] [] [] [] [] [] [] [] [] [] t).
Abbreviation u_header_read := (fun _ : stream => @Ok (AcadVersion * nat) (R2000, 0)).
Abbreviation u_item_read := (fun (d : UDrawing) (_ : stream) => @Ok (UDrawing * nat) (d, 0)).
Abbreviation u_entity_read := (fun _ : stream => @Ok (list unit * nat) ([], 0)).
Abbreviation u_object_read := (fun _ : stream => (@nil unit, 0)).
Abbreviation u_read_line :=
  (fun src : list string =>
     match src with [] => None | l :: r => Some (@Ok (string * list string) (l, r)) end).
Abbreviation u_dxb_load := (fun _ : list string => @Ok UDrawing (udrawing R2013 None)).
Abbreviation u_code_pair_iter := (fun (_ : list string) (_ : string) => @nil Item).
Abbreviation bmp_with_zeros n := (app bmp_header (List.repeat Byte.x00 n)).
Abbreviation u_header_one := (fun _ : stream => @Ok (AcadVersion * nat) (R14, 1)).
Abbreviation u_entity_one := (fun _ : stream => @Ok (list unit * nat) ([tt], 1)).
Abbreviation u_object_one := (fun _ : stream => ([tt; tt], 1)).

Lemma read_thumbnail_wellformed_panics_witness :
  forallb valid_hex_string ["0AFF"; "42"] = true /\
  ([IOk (new_str 0 "ENDSEC")] = [] \/
   exists v rest, [IOk (new_str 0 "ENDSEC")] = IOk (mk_pair 0 v) :: rest) /\
  read_thumbnail (udrawing R2000 None)
    (IOk (new_i32 90 3) :: map (fun h => IOk (new_str 310 h)) ["0AFF"; "42"]
       ++ [IOk (new_str 0 "ENDSEC")]) = Panic.
Proof.
  split; [reflexivity|].
  split; [right; exists (Str "ENDSEC"), []; reflexivity|].
  apply read_thumbnail_wellformed_panics;
    [reflexivity|right; exists (Str "ENDSEC"), []; reflexivity].
Defined.

Lemma unknown_section_skipped_witness :
  ~ In "ACDSDATA" known_section_names /\
  forallb skippable_pair [new_i32 70 2; new_str 0 "FOO"; new_str 1 "ENDSEC"] = true /\
  read_sections u_header_read u_item_read u_item_read u_item_read u_entity_read u_object_read
    (udrawing R2000 None)
    (map IOk (section "ACDSDATA" [new_i32 70 2; new_str 0 "FOO"; new_str 1 "ENDSEC"])
       ++ map IOk (section "ENTITIES" []) ++ [IOk (new_str 0 "EOF")]) =
  read_sections u_header_read u_item_read u_item_read u_item_read u_entity_read u_object_read
    (udrawing R2000 None)
    (map IOk (section "ENTITIES" []) ++ [IOk (new_str 0 "EOF")]) /\
  load_code_pairs R2000 u_header_read u_item_read u_item_read u_item_read u_entity_read
    u_object_read
    (map IOk (section "ACDSDATA" [new_i32 70 2; new_str 0 "FOO"; new_str 1 "ENDSEC"])
       ++ map IOk (section "ENTITIES" []) ++ [IOk (new_str 0 "EOF")]) =
  Ok (udrawing R2000 None).
Proof.
  assert (Hn : ~ In "ACDSDATA" known_section_names) by (simpl; intuition discriminate).
  assert (Hb : forallb skippable_pair [new_i32 70 2; new_str 0 "FOO"; new_str 1 "ENDSEC"]
               = true) by reflexivity.
  destruct (unknown_section_skipped R2000 u_header_read u_item_read u_item_read u_item_read
              u_entity_read u_object_read (udrawing R2000 None) "ACDSDATA"
              [new_i32 70 2; new_str 0 "FOO"; new_str 1 "ENDSEC"]
              (map IOk (section "ENTITIES" []) ++ [IOk (new_str 0 "EOF")]) Hn Hb)
    as (_ & H2 & H3).
  split; [exact Hn|]. split; [exact Hb|]. split; [exact H2|].
  rewrite H3. vm_compute. reflexivity.
Defined.

Lemma read_section_item_contract_witness :
  code (new_i32 70 1) <> 0%Z /\
  read_section_item "TABLE" u_item_read (udrawing R2000 None) [IOk (new_i32 70 1)] =
  Err (UnexpectedCodePair (new_i32 70 1) "") /\
  "TABLE" <> "ENDSEC" /\
  read_section_item "TABLE" u_item_read (udrawing R2000 None)
    (IOk (new_str 0 "TABLE") :: IOk (new_str 0 "ENDSEC") :: []) =
  ('(d', n) <- u_item_read (udrawing R2000 None) [IOk (new_str 0 "ENDSEC")] ;;
   read_section_item "TABLE" u_item_read d' (skipn n [IOk (new_str 0 "ENDSEC")])) /\
  "BLOCK" <> "ENDSEC" /\ "BLOCK" <> "TABLE" /\
  read_section_item "TABLE" u_item_read (udrawing R2000 None) [IOk (new_str 0 "BLOCK")] =
  Err (UnexpectedCodePair (new_str 0 "BLOCK") "").
Proof.
  destruct (read_section_item_contract "TABLE" u_item_read (udrawing R2000 None))
    as (H1 & _ & H3 & H4 & _).
  refine (conj _ (conj _ (conj _ (conj _ (conj _ (conj _ _)))))).
  - discriminate.
  - apply H1. discriminate.
  - discriminate.
  - apply H3. discriminate.
  - discriminate.
  - discriminate.
  - apply H4; discriminate.
Defined.

Lemma load_eof_handling_witness :
  read_sections u_header_read u_item_read u_item_read u_item_read u_entity_read u_object_read
    (drawing_default R2000) (map IOk (section "ENTITIES" [])) = Ok (udrawing R2000 None, []) /\
  load_code_pairs R2000 u_header_read u_item_read u_item_read u_item_read u_entity_read
    u_object_read (map IOk (section "ENTITIES" [])) = Ok (udrawing R2000 None) /\
  is_str_pair 0 "EOF" (new_str 0 "SECTION") = false /\
  load_finish (udrawing R2000 None) [IOk (new_str 0 "SECTION")] =
  Err (UnexpectedCodePair (new_str 0 "SECTION") "expected 0/EOF").
Proof.
  destruct (load_eof_handling R2000 u_header_read u_item_read u_item_read u_item_read
              u_entity_read u_object_read) as (_ & _ & H3 & H4).
  assert (E : read_sections u_header_read u_item_read u_item_read u_item_read u_entity_read
                u_object_read (drawing_default R2000) (map IOk (section "ENTITIES" [])) =
              Ok (udrawing R2000 None, [])) by (vm_compute; reflexivity).
  split; [exact E|]. split; [apply H3; exact E|].
  split; [reflexivity|]. apply H4. reflexivity.
Defined.

Lemma load_sniff_witness :
  u_read_line ["AutoCAD DXB 1.0"; "x"] = Some (Ok ("AutoCAD DXB 1.0", ["x"])) /\
  load R2000 u_header_read u_item_read u_item_read u_item_read u_entity_read u_object_read
    u_read_line u_dxb_load u_code_pair_iter ["AutoCAD DXB 1.0"; "x"] = u_dxb_load ["x"] /\
  u_read_line ["0"; "SECTION"] = Some (Ok ("0", ["SECTION"])) /\
  "0" <> "AutoCAD DXB 1.0" /\
  load R2000 u_header_read u_item_read u_item_read u_item_read u_entity_read u_object_read
    u_read_line u_dxb_load u_code_pair_iter ["0"; "SECTION"] =
  load_code_pairs R2000 u_header_read u_item_read u_item_read u_item_read u_entity_read
    u_object_read (u_code_pair_iter ["SECTION"] "0") /\
  u_read_line [] = None /\
  load R2000 u_header_read u_item_read u_item_read u_item_read u_entity_read u_object_read
    u_read_line u_dxb_load u_code_pair_iter [] = Err UnexpectedEndOfInput.
Proof.
  destruct (load_sniff R2000 u_header_read u_item_read u_item_read u_item_read
              u_entity_read u_object_read u_read_line u_dxb_load u_code_pair_iter)
    as (H1 & H2 & H3).
  refine (conj _ (conj _ (conj _ (conj _ (conj _ (conj _ _)))))).
  - reflexivity.
  - apply (H1 ["AutoCAD DXB 1.0"; "x"] "AutoCAD DXB 1.0" ["x"]); reflexivity.
  - reflexivity.
  - discriminate.
  - apply (H2 ["0"; "SECTION"] "0" ["SECTION"]); [reflexivity|discriminate].
  - reflexivity.
  - apply H3. reflexivity.
Defined.

Lemma save_internal_layout_witness :
  (forall data, thumbnail (udrawing R2000 (Some bmp_header)) = Some data ->
                14 <= length data) /\
  save_internal (fun v => v) (fun _ => false) [] (fun _ => []) (fun _ _ => [])
    (fun _ _ => []) (fun _ _ _ => []) (fun _ _ _ => []) (fun _ _ => [])
    (udrawing R2000 (Some bmp_header)) =
  Ok (section "TABLES" [] ++ section "ENTITIES" [] ++ section "OBJECTS" [] ++
      section "THUMBNAILIMAGE" [new_i32 90 0] ++ [new_str 0 "EOF"]).
Proof.
  assert (H : forall data, thumbnail (udrawing R2000 (Some bmp_header)) = Some data ->
                           14 <= length data)
    by (intros data E; injection E as <-; simpl; lia).
  split; [exact H|].
  pose proof (save_internal_layout (fun v => v) (fun _ => false) [] (fun _ => [])
                (fun _ _ => []) (fun _ _ => []) (fun _ _ _ => []) (fun _ _ _ => [])
                (fun _ _ => []) (udrawing R2000 (Some bmp_header)) H) as E.
  cbv zeta in E. rewrite E. reflexivity.
Defined.

Lemma write_thumbnail_needs_header_witness :
  version_ge ((fun v : AcadVersion => v) (header (udrawing R2000 (Some [Byte.x00])))) R2000
    = true /\
  write_thumbnail (fun v => v) (udrawing R2000 (Some [Byte.x00])) = Panic /\
  exists out, write_thumbnail (fun v => v) (udrawing R2000 (Some bmp_header)) = Ok out.
Proof.
  split; [reflexivity|]. split.
  - apply (write_thumbnail_needs_header (fun v => v) (udrawing R2000 (Some [Byte.x00]))
             [Byte.x00]); [reflexivity|reflexivity|simpl; lia].
  - apply (write_thumbnail_needs_header (fun v => v) (udrawing R2000 (Some bmp_header))
             bmp_header); [reflexivity|reflexivity|simpl; lia].
Defined.

(** C2 (code bug).  [format!("{:X}", b)] has no width: the bytes [05 0A FF]
    of a payload are written as ["5AFF"], one character for each byte
    below [0x10], where the section format has two per byte (["050AFF"]). *)
Lemma write_thumbnail_unpadded_hex :
  write_thumbnail (fun v : AcadVersion => v)
    (udrawing R2000 (Some (app bmp_header [Byte.x05; Byte.x0a; Byte.xff]))) =
  Ok (section "THUMBNAILIMAGE" [new_i32 90 3; new_str 310 "5AFF"]).
Proof. vm_compute. reflexivity. Qed.

(** C3 (code bug).  Decoding what the writer encodes does not give the
    buffer back: for the bare 14-byte header (length field 0) the decoder
    panics on the empty [length_bytes]; for a one-byte payload [05] (length
    field 1) the writer's ["5"] is an odd-length hex string the decoder
    rejects. *)
Lemma thumbnail_decode_encode_fails :
  write_thumbnail (fun v : AcadVersion => v) (udrawing R2000 (Some bmp_header)) =
  Ok (section "THUMBNAILIMAGE" [new_i32 90 0]) /\
  read_thumbnail (udrawing R2000 None) (map IOk [new_i32 90 0; new_str 0 "ENDSEC"]) = Panic /\
  write_thumbnail (fun v : AcadVersion => v)
    (udrawing R2000 (Some [Byte.x42; Byte.x4d; Byte.x01; Byte.x00; Byte.x00; Byte.x00;
                           Byte.x00; Byte.x00; Byte.x00; Byte.x00; Byte.x36; Byte.x04;
                           Byte.x00; Byte.x00; Byte.x05])) =
  Ok (section "THUMBNAILIMAGE" [new_i32 90 1; new_str 310 "5"]) /\
  read_thumbnail (udrawing R2000 None)
    (map IOk [new_i32 90 1; new_str 310 "5"; new_str 0 "ENDSEC"]) = Err ParseError.
Proof. vm_compute. repeat split. Qed.

(** C7 (code bug).  A 142-byte payload of zero bytes: below R2000 nothing
    is written; from R2000 on the section has the declared length 142 and
    two [310] lines, of 128 and 14 characters (not 256 and 28), each zero
    byte being written as the single character [0]. *)
Lemma thumbnail_142_byte_payload :
  write_thumbnail (fun v : AcadVersion => v) (udrawing R14 (Some (bmp_with_zeros 142))) = Ok [] /\
  exists lines,
    write_thumbnail (fun v : AcadVersion => v) (udrawing R2000 (Some (bmp_with_zeros 142))) =
    Ok (section "THUMBNAILIMAGE" (new_i32 90 142 :: lines)) /\
    map (fun p => match value p with Str s => String.length s | _ => 0 end) lines = [128; 14].
Proof.
  split; [vm_compute; reflexivity|].
  exists [new_str 310 (string_of_list_ascii (List.repeat "0"%char 128));
          new_str 310 (string_of_list_ascii (List.repeat "0"%char 14))].
  split; vm_compute; reflexivity.
Qed.

Lemma swallow_table_needs_marker_witness :
  forallb table_skippable [new_i32 70 1; new_str 0 "FOO"] = true /\
  swallow_table (map IOk [new_i32 70 1; new_str 0 "FOO"]) = Err UnexpectedEndOfInput.
Proof.
  split; [reflexivity|].
  exact (proj1 (swallow_table_needs_marker [new_i32 70 1; new_str 0 "FOO"] eq_refl)).
Defined.

Lemma read_section_item_ends_at_endsec_witness :
  read_section_item "TABLE" u_item_read (udrawing R2000 None)
    (map IOk [new_str 0 "TABLE"; new_str 0 "ENDSEC"]) =
  Ok (udrawing R2000 None, [IOk (new_str 0 "ENDSEC")]) /\
  exists rest, [IOk (new_str 0 "ENDSEC")] = IOk (new_str 0 "ENDSEC") :: rest.
Proof.
  assert (E : read_section_item "TABLE" u_item_read (udrawing R2000 None)
                (map IOk [new_str 0 "TABLE"; new_str 0 "ENDSEC"]) =
              Ok (udrawing R2000 None, [IOk (new_str 0 "ENDSEC")]))
    by (vm_compute; reflexivity).
  split; [exact E|]. exact (read_section_item_ends_at_endsec _ _ _ _ _ _ E).
Defined.

Lemma read_sections_framing_errors_witness :
  code (new_i32 70 1) <> 0%Z /\
  read_sections u_header_read u_item_read u_item_read u_item_read u_entity_read u_object_read
    (udrawing R2000 None) [IOk (new_i32 70 1)] =
  Err (UnexpectedCodePair (new_i32 70 1) "expected 0/SECTION or 0/EOF") /\
  "TABLE" <> "EOF" /\ "TABLE" <> "SECTION" /\
  read_sections u_header_read u_item_read u_item_read u_item_read u_entity_read u_object_read
    (udrawing R2000 None) [IOk (new_str 0 "TABLE")] =
  Err (UnexpectedCodePair (new_str 0 "TABLE") "expected 0/SECTION") /\
  str_pair 2 (new_i32 70 1) = None /\
  read_sections u_header_read u_item_read u_item_read u_item_read u_entity_read u_object_read
    (udrawing R2000 None) [IOk (new_str 0 "SECTION"); IOk (new_i32 70 1)] =
  Err (UnexpectedCodePair (new_i32 70 1) "expected 2/<section-name>").
Proof.
  destruct (read_sections_framing_errors u_header_read u_item_read u_item_read u_item_read
              u_entity_read u_object_read (udrawing R2000 None)) as (H1 & H2 & H3 & _).
  refine (conj _ (conj _ (conj _ (conj _ (conj _ (conj _ _)))))).
  - discriminate.
  - apply H1. discriminate.
  - discriminate.
  - discriminate.
  - apply H2; discriminate.
  - reflexivity.
  - apply H3. reflexivity.
Defined.

Lemma section_needs_endsec_witness :
  read_section u_header_read u_item_read u_item_read u_item_read u_entity_read u_object_read
    "ENTITIES" (udrawing R2000 None) [IOk (new_i32 70 1)] =
  Ok (udrawing R2000 None, [IOk (new_i32 70 1)]) /\
  is_str_pair 0 "ENDSEC" (new_i32 70 1) = false /\
  read_sections u_header_read u_item_read u_item_read u_item_read u_entity_read u_object_read
    (udrawing R2000 None)
    [IOk (new_str 0 "SECTION"); IOk (new_str 2 "ENTITIES"); IOk (new_i32 70 1)] =
  Err (UnexpectedCodePair (new_i32 70 1) "expected 0/ENDSEC") /\
  ~ In "ACDSDATA" known_section_names /\
  forallb skippable_pair [new_i32 70 1] = true /\
  read_sections u_header_read u_item_read u_item_read u_item_read u_entity_read u_object_read
    (udrawing R2000 None)
    (map IOk ([new_str 0 "SECTION"; new_str 2 "ACDSDATA"] ++ [new_i32 70 1])) =
  Err UnexpectedEndOfInput.
Proof.
  assert (Hn : ~ In "ACDSDATA" known_section_names) by (simpl; intuition discriminate).
  assert (E : read_section u_header_read u_item_read u_item_read u_item_read u_entity_read
                u_object_read "ENTITIES" (udrawing R2000 None) [IOk (new_i32 70 1)] =
              Ok (udrawing R2000 None, [IOk (new_i32 70 1)])) by reflexivity.
  destruct (section_needs_endsec u_header_read u_item_read u_item_read u_item_read
              u_entity_read u_object_read (udrawing R2000 None) "ENTITIES"
              [IOk (new_i32 70 1)]) as (_ & H2 & _).
  destruct (section_needs_endsec u_header_read u_item_read u_item_read u_item_read
              u_entity_read u_object_read (udrawing R2000 None) "ACDSDATA"
              []) as (_ & _ & H3).
  refine (conj E (conj _ (conj _ (conj Hn (conj _ _))))).
  - reflexivity.
  - exact (H2 _ _ _ E eq_refl).
  - reflexivity.
  - exact (H3 Hn [new_i32 70 1] eq_refl).
Defined.

Lemma header_section_replaces_witness :
  u_header_one (map IOk [new_i32 70 1] ++ IOk (new_str 0 "ENDSEC") :: []) =
  Ok (R14, length [new_i32 70 1]) /\
  read_sections u_header_one u_item_read u_item_read u_item_read u_entity_read u_object_read
    (udrawing R2000 None) (map IOk (section "HEADER" [new_i32 70 1]) ++ []) =
  read_sections u_header_one u_item_read u_item_read u_item_read u_entity_read u_object_read
    (set_header (udrawing R2000 None) R14) [].
Proof.
  split; [reflexivity|].
  apply (header_section_replaces u_header_one u_item_read u_item_read u_item_read
           u_entity_read u_object_read (udrawing R2000 None) [new_i32 70 1] [] R14).
  reflexivity.
Defined.

Lemma entities_objects_sections_append_witness :
  u_entity_one (map IOk [new_i32 70 1] ++ IOk (new_str 0 "ENDSEC") :: []) =
  Ok ([tt], length [new_i32 70 1]) /\
  read_sections u_header_read u_item_read u_item_read u_item_read u_entity_one u_object_one
    (udrawing R2000 None) (map IOk (section "ENTITIES" [new_i32 70 1]) ++ []) =
  read_sections u_header_read u_item_read u_item_read u_item_read u_entity_one u_object_one
    (set_entities (udrawing R2000 None) ([] ++ [tt])) [] /\
  u_object_one (map IOk [new_i32 70 1] ++ IOk (new_str 0 "ENDSEC") :: []) =
  ([tt; tt], length [new_i32 70 1]) /\
  read_sections u_header_read u_item_read u_item_read u_item_read u_entity_one u_object_one
    (udrawing R2000 None) (map IOk (section "OBJECTS" [new_i32 70 1]) ++ []) =
  read_sections u_header_read u_item_read u_item_read u_item_read u_entity_one u_object_one
    (set_objects (udrawing R2000 None) ([] ++ [tt; tt])) [].
Proof.
  destruct (entities_objects_sections_append u_header_read u_item_read u_item_read
              u_item_read u_entity_one u_object_one (udrawing R2000 None)
              [new_i32 70 1] []) as (H1 & H2).
  refine (conj eq_refl (conj _ (conj eq_refl _))).
  - exact (H1 [tt] eq_refl).
  - exact (H2 [tt; tt] eq_refl).
Defined.



Lemma write_thumbnail_chunking_witness :
  version_ge ((fun v : AcadVersion => v) (header (udrawing R2000 (Some (bmp_with_zeros 142)))))
    R2000 = true /\
  14 <= length (bmp_with_zeros 142) /\
  exists cs,
    write_thumbnail (fun v : AcadVersion => v) (udrawing R2000 (Some (bmp_with_zeros 142))) =
      Ok (section "THUMBNAILIMAGE"
            (new_i32 90 (as_i32 (length (bmp_with_zeros 142) - 14)) ::
             map (fun c => new_str 310 (hex_line c)) cs)) /\
    concat cs = skipn 14 (bmp_with_zeros 142) /\
    Forall (fun c => 0 < length c <= 128) cs /\
    Forall (fun c => length c = 128) (removelast cs) /\
    length cs = (length (bmp_with_zeros 142) - 14 + 127) / 128 /\
    (Z.of_nat (length (bmp_with_zeros 142) - 14) < 2 ^ 31 ->
     as_i32 (length (bmp_with_zeros 142) - 14) =
     Z.of_nat (length (bmp_with_zeros 142) - 14))%Z.
Proof.
  assert (L : 14 <= length (bmp_with_zeros 142)) by (apply Nat.leb_le; reflexivity).
  split; [reflexivity|]. split; [exact L|].
  exact (write_thumbnail_chunking (fun v : AcadVersion => v)
           (udrawing R2000 (Some (bmp_with_zeros 142))) (bmp_with_zeros 142)
           eq_refl eq_refl L).
Defined.

Lemma hex_line_roundtrip_witness :
  (forall b, In b [Byte.x42; Byte.xff] -> 16 <= Byte.to_nat b) /\
  parse_hex_string (hex_line [Byte.x42; Byte.xff]) [] = Ok ([] ++ [Byte.x42; Byte.xff]).
Proof.
  assert (H : forall b, In b [Byte.x42; Byte.xff] -> 16 <= Byte.to_nat b)
    by (intros b [<-|[<-|[]]]; apply Nat.leb_le; reflexivity).
  split; [exact H|]. exact (hex_line_roundtrip _ [] H).
Defined.
